(** * Beam analysis: closed-form deflection, bending moment and shear force

    A shallow embedding of [js/beam-analysis.js].  The repository holds
    two revisions of that file.  Both share the data classes, the
    dispatcher [BeamAnalysis] and the [simplySupported] analyzer; they
    differ in the [twoSpanUnequal] analyzer:
    - revision A derives the reactions from a scalar load in its
      deflection and shear-force equations and reads the external value
      [floatVal("j2")];
    - revision B takes a structured load [{w1, w2, R1, R2, R3}] in all
      three equations.

    Numbers.  A JavaScript number is modelled as an exact rational or as
    the token [NaN].  Rounding error and overflow of IEEE doubles are
    outside the model.  [NaN] is what [undefined] turns into inside
    arithmetic, and it also stands for the non-finite result of a
    division by zero.  Such a quotient only ever flows into the returned
    [y]; the comparisons of the program read inputs and sums of inputs
    only.

    Rounding.  Where a property turns on the rounding of the arithmetic,
    the expression concerned is transcribed a second time over IEEE
    binary64 numbers, the numbers JavaScript computes with (module
    [Double]), and evaluated there. *)

From Stdlib Require Import QArith Qabs Qround Qpower Qfield Lqa DecimalString Floats.
From stdpp Require Import gmap strings.

Local Open Scope Q_scope.

(** ** JavaScript numbers *)

Module JS.

Inductive number : Type :=
| Fin (q : Q)
| NaN.

(** [ToNumber(undefined)] is [NaN]; a missing property reads as
    [undefined]. *)
Definition to_number (v : option Q) : number :=
  match v with
  | Some q => Fin q
  | None => NaN
  end.

Definition lift2 (f : Q -> Q -> Q) (a b : number) : number :=
  match a, b with
  | Fin p, Fin q => Fin (f p q)
  | _, _ => NaN
  end.

Definition add : number -> number -> number := lift2 Qplus.
Definition sub : number -> number -> number := lift2 Qminus.
Definition mul : number -> number -> number := lift2 Qmult.

(** [a / b]: a zero divisor gives a non-finite quotient. *)
Definition div (a b : number) : number :=
  match a, b with
  | Fin p, Fin q => if Qeq_bool q 0 then NaN else Fin (p / q)
  | _, _ => NaN
  end.

Definition neg (a : number) : number :=
  match a with
  | Fin p => Fin (- p)
  | NaN => NaN
  end.

(** [Math.pow(a, n)] and [a ** n] for a literal exponent [n > 0]. *)
Definition pow (a : number) (n : positive) : number :=
  match a with
  | Fin p => Fin (Qpower_positive p n)
  | NaN => NaN
  end.

(** Comparisons: any comparison with [NaN] is false. *)
Definition eqb (a b : number) : bool :=
  match a, b with
  | Fin p, Fin q => Qeq_bool p q
  | _, _ => false
  end.

Definition leb (a b : number) : bool :=
  match a, b with
  | Fin p, Fin q => Qle_bool p q
  | _, _ => false
  end.

Definition ltb (a b : number) : bool :=
  match a, b with
  | Fin p, Fin q => negb (Qle_bool q p)
  | _, _ => false
  end.

Definition geb (a b : number) : bool := leb b a.
Definition gtb (a b : number) : bool := ltb b a.

(** [ToNumber] of a boolean, as in the chained comparison [a < b < c]. *)
Definition of_bool (b : bool) : number := Fin (if b then 1 else 0).

(** Same number up to the representation of the rational. *)
Definition equiv (a b : number) : Prop :=
  match a, b with
  | Fin p, Fin q => p == q
  | NaN, NaN => True
  | _, _ => False
  end.

(** [n.toFixed(2)]: the decimal string of [n] rounded to two fraction
    digits, ties away from zero; a negative number keeps its sign even
    when it rounds to zero.  (Magnitudes of 1e21 and more, which
    JavaScript prints in exponent form, are not distinguished.) *)
Definition two_digits (n : Z) : string :=
  let s := NilZero.string_of_uint (N.to_uint (Z.to_N n)) in
  if (n <? 10)%Z then ("0" ++ s)%string else s.

Definition toFixed2 (a : number) : string :=
  match a with
  | NaN => "NaN"%string
  | Fin q =>
      let n := Qfloor (Qabs q * 100 + (1 # 2)) in
      let sign := if negb (Qle_bool 0 q) then "-"%string else ""%string in
      (sign ++ NilZero.string_of_uint (N.to_uint (Z.to_N (n / 100))) ++ "."
            ++ two_digits (n mod 100))%string
  end.

End JS.

Declare Scope js_scope.
Delimit Scope js_scope with js.
Bind Scope js_scope with JS.number.
Infix "+" := JS.add : js_scope.
Infix "-" := JS.sub : js_scope.
Infix "*" := JS.mul : js_scope.
Infix "/" := JS.div : js_scope.
Notation "- a" := (JS.neg a) : js_scope.
Infix "**" := JS.pow (at level 30, right associativity) : js_scope.
Infix "<=?" := JS.leb : js_scope.
Infix "<?" := JS.ltb : js_scope.
Infix ">=?" := JS.geb (at level 70) : js_scope.
Infix ">?" := JS.gtb (at level 70) : js_scope.
Infix "==?" := JS.eqb (at level 70) : js_scope.
Coercion JS.Fin : Q >-> JS.number.

(** ** Data model *)

(** [class Material]: a name and the property object [{EI : .., GA : ..}]. *)
Record Material : Type := {
  name : string;
  properties : gmap string Q
}.

(** [class Beam].  The constructor sets [primarySpan], [secondarySpan]
    and [material].  The structured-load equations destructure
    [{ L1, L2 }] from the beam instead: these are further own properties
    of the object, absent ([None], read as [undefined]) on an object
    built by the constructor. *)
Record Beam : Type := {
  primarySpan : Q;
  secondarySpan : Q;
  material : Material;
  L1 : option Q;
  L2 : option Q
}.

Definition new_Beam (primarySpan secondarySpan : Q) (material : Material) : Beam :=
  {| primarySpan := primarySpan; secondarySpan := secondarySpan;
     material := material; L1 := None; L2 := None |}.

(** The load argument: a number, or the object [{w1, w2, R1, R2, R3}]. *)
Record StructuredLoad : Type := {
  w1 : Q; w2 : Q; R1 : Q; R2 : Q; R3 : Q
}.

Inductive Load : Type :=
| Scalar (w : Q)
| Structured (s : StructuredLoad).

(** The load used as a number: an object converts to [NaN]. *)
Definition load_number (load : Load) : JS.number :=
  match load with
  | Scalar w => JS.Fin w
  | Structured _ => JS.NaN
  end.

(** A property of the load: [undefined] on a number. *)
Definition load_property (f : StructuredLoad -> Q) (load : Load) : option Q :=
  match load with
  | Scalar _ => None
  | Structured s => Some (f s)
  end.

(** The [y] of a point is a number, or the string made by [toFixed]. *)
Inductive value : Type :=
| Num (n : JS.number)
| Str (s : string).

Record Point : Type := { x : Q; y : value }.

(** State outside the program: the global function [floatVal], which
    reads a number by name (its definition is not part of the file). *)
Record Env : Type := { floatVal : string -> JS.number }.

Inductive exn : Type :=
| Error (message : string)
| TypeError.

Inductive result (A : Type) : Type :=
| Ok (a : A)
| Throw (e : exn).
Arguments Ok {A} a.
Arguments Throw {A} e.

(** [V.toFixed(2)] for a variable [V] that may hold [undefined]:
    calling a method of [undefined] raises a [TypeError]. *)
Definition toFixed (V : option JS.number) : result value :=
  match V with
  | Some n => Ok (Str (JS.toFixed2 n))
  | None => Throw TypeError
  end.

(** An evaluator [function (x) {...}], run in the environment of the
    call. *)
Definition Equation : Type := Env -> Q -> result Point.

(** ** The simply supported analyzer *)

Module simplySupported.
Local Open Scope js_scope.

Definition getDeflectionEquation (beam : Beam) (load : Load) : Equation :=
  let primarySpan : JS.number := primarySpan beam in
  let EI := JS.to_number (properties (material beam) !! "EI"%string) in
  fun _ x =>
    let L := primarySpan in
    let w := load_number load in
    let y : JS.number :=
      if (x >=? 0) && (x <=? L)
      then - ((w * x) / (24 * EI)) * (L ** 3 - 2 * L * x ** 2 + x ** 3) * 1000
      else 0 in
    Ok {| x := x; y := Num y |}.

Definition getBendingMomentEquation (beam : Beam) (load : Load) : Equation :=
  let primarySpan : JS.number := primarySpan beam in
  fun _ x =>
    let L := primarySpan in
    let w := load_number load in
    let M : JS.number :=
      if (x >=? 0) && (x <=? L)
      then - ((w * x) / 2) * (L - x)
      else 0 in
    Ok {| x := x; y := Num M |}.

Definition getShearForceEquation (beam : Beam) (load : Load) : Equation :=
  let primarySpan : JS.number := primarySpan beam in
  fun _ x =>
    let L := primarySpan in
    let w := load_number load in
    let V : JS.number :=
      if (x >=? 0) && (x <=? L)
      then w * ((L / 2) - x)
      else 0 in
    Ok {| x := x; y := Num V |}.

End simplySupported.

(** ** The two-span analyzer, structured-load equations

    [getBendingMomentEquation] is the same in both revisions;
    [getDeflectionEquation] and [getShearForceEquation] are those of
    revision B. *)

Module twoSpanUnequalB.
Local Open Scope js_scope.

(** The two segment expressions of the bending moment. *)
Definition momentFirstSpan (R1 w1 x : JS.number) : JS.number :=
  R1 * x - (w1 * x ** 2) / 2.

Definition momentSecondSpan (R1 R2 w1 w2 L1 x : JS.number) : JS.number :=
  let x2 := x - L1 in
  R1 * x + R2 * x2 - (w1 * L1 ** 2) / 2 - (w2 * x2 ** 2) / 2.

Definition getBendingMomentEquation (_ : Env) (beam : Beam) (load : Load) : Equation :=
  let L1 := JS.to_number (L1 beam) in
  let L2 := JS.to_number (L2 beam) in
  let w1 := JS.to_number (load_property w1 load) in
  let w2 := JS.to_number (load_property w2 load) in
  let R1 := JS.to_number (load_property R1 load) in
  let R2 := JS.to_number (load_property R2 load) in
  fun _ x =>
    let M : JS.number :=
      if x ==? 0 then 0
      else if (x >? 0) && (x <=? L1) then momentFirstSpan R1 w1 x
      else if (x >? L1) && (x <=? L1 + L2) then momentSecondSpan R1 R2 w1 w2 L1 x
      else if x >? L1 + L2 then 0
      else 0 in
    match toFixed (Some M) with
    | Ok s => Ok {| x := x; y := s |}
    | Throw e => Throw e
    end.

Definition getDeflectionEquation (_ : Env) (beam : Beam) (load : Load) : Equation :=
  let L1 := JS.to_number (L1 beam) in
  let L2 := JS.to_number (L2 beam) in
  let w1 := JS.to_number (load_property w1 load) in
  let w2 := JS.to_number (load_property w2 load) in
  let R1_ := load_property R1 load in
  let R1 := JS.to_number R1_ in
  let R2 := JS.to_number (load_property R2 load) in
  let R3 := JS.to_number (load_property R3 load) in
  fun _ x =>
    let V : option JS.number :=
      if x ==? 0 then option_map JS.Fin R1_
      else if (x >? 0) && (x <=? L1) then Some (R1 - w1 * x)
      else if (x >? L1) && (x <=? L1 + L2) then
        let x2 := x - L1 in
        Some (R1 + R2 - w1 * L1 - w2 * x2)
      else if x >? L1 + L2 then Some (R1 + R2 + R3 - w1 * L1 - w2 * L2)
      else Some (JS.Fin 0) in
    match toFixed V with
    | Ok s => Ok {| x := x; y := s |}
    | Throw e => Throw e
    end.

Definition getShearForceEquation (_ : Env) (beam : Beam) (load : Load) : Equation :=
  let L1 := JS.to_number (L1 beam) in
  let L2 := JS.to_number (L2 beam) in
  let w1 := JS.to_number (load_property w1 load) in
  let w2 := JS.to_number (load_property w2 load) in
  let R1_ := load_property R1 load in
  let R1 := JS.to_number R1_ in
  let R2 := JS.to_number (load_property R2 load) in
  let R3 := JS.to_number (load_property R3 load) in
  fun _ x =>
    let V : option JS.number :=
      if x ==? 0 then option_map JS.Fin R1_
      else if (x >? 0) && (x <=? L1) then Some (R1 - (w1 * x))
      else if (x >? L1) && (x <=? L1 + L2) then
        Some (R1 + R2 - (w1 * L1) - (w2 * (x - L1)))
      else if x >? L1 + L2 then Some (R1 + R2 + R3 - (w1 * L1) - (w2 * L2))
      else Some (JS.Fin 0) in
    match toFixed V with
    | Ok s => Ok {| x := x; y := s |}
    | Throw e => Throw e
    end.

End twoSpanUnequalB.

(** ** The two-span analyzer, scalar-load equations (revision A) *)

Module twoSpanUnequalA.
Local Open Scope js_scope.

(** The support moment and the three reactions, as both the deflection
    and the shear-force equation derive them: [(M1, R1, R2, R3)]. *)
Definition reactions (L1 L2 w : JS.number)
  : JS.number * JS.number * JS.number * JS.number :=
  let M1 := (((w * L2 ** 3) + (w * L1 ** 3)) / (8 * (L1 + L2))) * (- (1)) in
  let R1 := (M1 / L1) + ((w * L1) / 2) in
  let R3 := (M1 / L2) + ((w * L2) / 2) in
  let R2 := w * L1 + w * L2 - R1 - R3 in
  (M1, R1, R2, R3).

Definition getDeflectionEquation (_ : Env) (beam : Beam) (load : Load) : Equation :=
  fun env x =>
    let j2 := floatVal env "j2" in
    let L1 : JS.number := primarySpan beam in
    let L2 : JS.number := secondarySpan beam in
    let w := load_number load in
    let '(M1, R1, R2, R3) := reactions L1 L2 w in
    let EI := JS.to_number (properties (material beam) !! "EI"%string) / 1000000000 in
    let V : JS.number :=
      if x <=? L1 then
        x / 24 * (EI / 1000 ** 3)
          * ((4 * R1 * x ** 2) - (w * x ** 3) + (w * L1 ** 3) - (4 * R1 * L1 ** 2))
          * (1000 * j2)
      else if L1 <=? L1 + L2 then
        (((R1 * x) / 6) * (x ** 2 - L1 ** 2)
         + ((R2 * x) / 6) * (x ** 2 - (3 * L1 * x) + (3 * L1 ** 2))
         - ((R2 * L1 ** 3) / 6)
         - ((w * x) / 24) * (x ** 3 - L1 ** 3))
          * (1 / (EI / 1000 ** 3)) * (1000 * j2)
      else 0 in
    Ok {| x := x; y := Num V |}.

Definition getBendingMomentEquation : Env -> Beam -> Load -> Equation :=
  twoSpanUnequalB.getBendingMomentEquation.

(** The branch of the [if ... else if] chain of the shear force that
    runs for a given [x]. *)
Inductive ShearBranch : Type :=
| AtZero        (* x == 0 *)
| BeforeL1      (* x < L1 *)
| AtL1          (* x == L1 *)
| AtL2          (* x == L2 *)
| Chained       (* L1 < x < L *)
| AtL           (* x == L *)
| NoBranch.

Definition shearBranch (L1 L2 L x : JS.number) : ShearBranch :=
  if x ==? 0 then AtZero
  else if x <? L1 then BeforeL1
  else if x ==? L1 then AtL1
  else if x ==? L2 then AtL2
  else if JS.of_bool (L1 <? x) <? L then Chained
  else if x ==? L then AtL
  else NoBranch.

Definition getShearForceEquation (env : Env) (beam : Beam) (load : Load) : Equation :=
  let j2 := floatVal env "j2" * 1000 in
  let L1 : JS.number := primarySpan beam in
  let L2 : JS.number := secondarySpan beam in
  let w := load_number load in
  let '(M1, R1, R2, R3) := reactions L1 L2 w in
  let EI := JS.to_number (properties (material beam) !! "EI"%string) in
  let L := L1 + L2 in
  fun _ x =>
    let V : JS.number :=
      match shearBranch L1 L2 L x with
      | AtZero => R1
      | BeforeL1 => R1 - w * x
      | AtL1 => R1 - (w * L1)
      | AtL2 => R1 + R2 - (w * L1)
      | Chained => R1 + R2 - (w * x)
      | AtL => R1 + R2 - (w * L)
      | NoBranch => 0
      end in
    Ok {| x := x; y := Num V |}.

End twoSpanUnequalA.

(** ** The dispatcher [BeamAnalysis] *)

(** An analyzer object: its three methods.  Each is run in the
    environment of the [get...] call and returns the evaluator. *)
Record Analyzer : Type := {
  getDeflectionEquation : Env -> Beam -> Load -> Equation;
  getBendingMomentEquation : Env -> Beam -> Load -> Equation;
  getShearForceEquation : Env -> Beam -> Load -> Equation
}.

Inductive Revision : Type := RevA | RevB.

Definition simplySupported : Analyzer :=
  {| getDeflectionEquation := fun _ => simplySupported.getDeflectionEquation;
     getBendingMomentEquation := fun _ => simplySupported.getBendingMomentEquation;
     getShearForceEquation := fun _ => simplySupported.getShearForceEquation |}.

Definition twoSpanUnequal (rev : Revision) : Analyzer :=
  match rev with
  | RevA =>
      {| getDeflectionEquation := twoSpanUnequalA.getDeflectionEquation;
         getBendingMomentEquation := twoSpanUnequalA.getBendingMomentEquation;
         getShearForceEquation := twoSpanUnequalA.getShearForceEquation |}
  | RevB =>
      {| getDeflectionEquation := twoSpanUnequalB.getDeflectionEquation;
         getBendingMomentEquation := twoSpanUnequalB.getBendingMomentEquation;
         getShearForceEquation := twoSpanUnequalB.getShearForceEquation |}
  end.

(** [this.analyzer], the own properties of the registry object. *)
Definition analyzer (rev : Revision) : gmap string Analyzer :=
  {[ "simply-supported"%string := simplySupported;
     "two-span-unequal"%string := twoSpanUnequal rev ]}.

(** The registry is an object literal, so a key it does not own is looked
    up in [Object.prototype].  These are the names defined there; each
    holds a function or an object, hence a truthy value, and none of
    those values has a [get...Equation] method. *)
Definition Object_prototype : list string :=
  [ "constructor"; "hasOwnProperty"; "isPrototypeOf"; "propertyIsEnumerable";
    "toLocaleString"; "toString"; "valueOf"; "__proto__";
    "__defineGetter__"; "__defineSetter__"; "__lookupGetter__";
    "__lookupSetter__" ]%string.

Inductive Property : Type :=
| Own (a : Analyzer)
| Inherited
| Missing.

(** [this.analyzer[condition]] *)
Definition get_property (o : gmap string Analyzer) (key : string) : Property :=
  match o !! key with
  | Some a => Own a
  | None => if bool_decide (key ∈ Object_prototype) then Inherited else Missing
  end.

(** The analysis result [{beam, load, equation}]. *)
Record Analysis : Type := {
  beam : Beam;
  load : Load;
  equation : Equation
}.

(** The body shared by [getDeflection], [getBendingMoment] and
    [getShearForce]: [method] is the analyzer method the operation
    calls.  A truthy value that is no analyzer takes the first branch,
    where calling its missing method raises a [TypeError]. *)
Definition dispatch (method : Analyzer -> Env -> Beam -> Load -> Equation)
    (rev : Revision) (env : Env) (beam : Beam) (load : Load) (condition : string)
  : result Analysis :=
  match get_property (analyzer rev) condition with
  | Own analyzer =>
      Ok {| beam := beam; load := load; equation := method analyzer env beam load |}
  | Inherited => Throw TypeError
  | Missing => Throw (Error "Invalid condition")
  end.

Definition getDeflection := dispatch getDeflectionEquation.
Definition getBendingMoment := dispatch getBendingMomentEquation.
Definition getShearForce := dispatch getShearForceEquation.

(** ** The plotter [AnalysisPlotter] ([js/analysis-plotter.js])

    [plot(data, options)] builds one configuration object and hands it
    to [new Chart(ctx, ...)].  The model is that configuration; the
    drawing itself belongs to the charting library. *)

Module AnalysisPlotter.

(** The [options] object: a property that is absent reads as
    [undefined]. *)
Record Options : Type := {
  type : option string;
  label : option string;
  color : option string;
  xLabel : option string;
  yLabel : option string
}.

(** The sampled series [{x: [...], y: [...]}]. *)
Record Data : Type := { xs : list Q; ys : list value }.

Record Dataset : Type := {
  dataset_label : string;
  dataset_data : list value;
  borderColor : string;
  borderWidth : Z;
  fill : bool
}.

(** An axis entry [{ title: { display: .., text: .. } }]. *)
Record Axis : Type := { display : bool; text : string }.

Record Config : Type := {
  config_type : string;
  labels : list Q;
  datasets : list Dataset;
  responsive : bool;
  scale_x : Axis;
  scale_y : Axis
}.

(** [v || d] on a string property: [undefined] and the empty string are
    falsy. *)
Definition or_default (v : option string) (d : string) : string :=
  match v with
  | Some s => if String.eqb s "" then d else s
  | None => d
  end.

(** [plot(data, options)].  Without the second argument [options] is
    [undefined] and reading [options.type] raises a [TypeError]. *)
Definition plot (data : Data) (options : option Options) : result Config :=
  match options with
  | None => Throw TypeError
  | Some options =>
      Ok {| config_type := or_default (type options) "line";
            labels := xs data;
            datasets :=
              [ {| dataset_label := or_default (label options) "Analysis Result";
                   dataset_data := ys data;
                   borderColor := or_default (color options) "blue";
                   borderWidth := 2;
                   fill := false |} ];
            responsive := true;
            scale_x := {| display := true;
                          text := or_default (xLabel options) "Position (x)" |};
            scale_y := {| display := true;
                          text := or_default (yLabel options) "Value (y)" |} |}
  end.

End AnalysisPlotter.

(** ** The arithmetic of the code: binary64

    The expressions whose rounding matters below, over the doubles of
    JavaScript.  [Math.pow(a, 3)] is taken as [a * a * a], which is what
    it returns on the integers it is evaluated at here. *)

Module Double.
Local Open Scope bool_scope.
Local Open Scope float_scope.

(** The rational a finite double stands for. *)
Definition to_Q (f : float) : option Q :=
  match Prim2SF f with
  | S754_zero _ => Some 0%Q
  | S754_finite s m e =>
      Some ((if s then - (1) else 1) * inject_Z (Zpos m) * 2 ^ e)%Q
  | S754_infinity _ | S754_nan => None
  end.

(** The double [f] is finite and has the rational value [q]. *)
Definition value_is (f : float) (q : Q) : Prop :=
  match to_Q f with
  | Some p => (p == q)%Q
  | None => False
  end.

(** The [M] of [simplySupported.getBendingMomentEquation]. *)
Definition getBendingMomentEquation (primarySpan load x : float) : float :=
  let L := primarySpan in
  let w := load in
  if (0 <=? x) && (x <=? L) then - ((w * x) / 2) * (L - x) else 0.

Definition cube (a : float) : float := a * a * a.

(** [M1], [R1], [R3] and [R2] of the scalar-load two-span equations, as
    [(M1, R1, R2, R3)]. *)
Definition reactions (L1 L2 w : float) : float * float * float * float :=
  let M1 := (((w * cube L2) + (w * cube L1)) / (8 * (L1 + L2))) * (- 1) in
  let R1 := (M1 / L1) + ((w * L1) / 2) in
  let R3 := (M1 / L2) + ((w * L2) / 2) in
  let R2 := w * L1 + w * L2 - R1 - R3 in
  (M1, R1, R2, R3).




End Double.

(** ** Definitions used by the statements *)

(** The three analysis operations. *)
Inductive Operation : Type := Deflection | BendingMoment | ShearForce.

Definition analyse (op : Operation)
  : Revision -> Env -> Beam -> Load -> string -> result Analysis :=
  match op with
  | Deflection => getDeflection
  | BendingMoment => getBendingMoment
  | ShearForce => getShearForce
  end.

(** The deflection of the simply supported beam in the words of the
    specification, over the rationals. *)
Definition deflectionFormula (L EI w x : Q) : Q :=
  - (w * x / (24 * EI)) * (L ^ 3 - 2 * L * x ^ 2 + x ^ 3) * 1000.

(** The bending moment of the simply supported beam in the words of the
    specification, over the rationals. *)
Definition momentFormula (L w x : Q) : Q :=
  - (w * x / 2) * (L - x).

(** The support moment and the reactions of the two-span beam in the
    words of the specification, over the rationals: [(M1, R1, R2, R3)]. *)
Definition reactionFormulas (L1 L2 w : Q) : Q * Q * Q * Q :=
  let M1 := - ((w * L2 ^ 3 + w * L1 ^ 3) / (8 * (L1 + L2))) in
  let R1 := M1 / L1 + w * L1 / 2 in
  let R3 := M1 / L2 + w * L2 / 2 in
  let R2 := w * L1 + w * L2 - R1 - R3 in
  (M1, R1, R2, R3).




(** The branch of the scalar-load shear force that runs for [beam] at [x]. *)
Definition shearBranchOf (beam : Beam) (x : Q) : twoSpanUnequalA.ShearBranch :=
  let L1 : JS.number := primarySpan beam in
  let L2 : JS.number := secondarySpan beam in
  twoSpanUnequalA.shearBranch L1 L2 (L1 + L2)%js x.

(** The only evaluator that reads [floatVal] when it is called. *)
Definition reads_j2 (rev : Revision) (op : Operation) (condition : string) : bool :=
  match rev, op with
  | RevA, Deflection => bool_decide (condition = "two-span-unequal"%string)
  | _, _ => false
  end.

(** Sample data for the concrete evaluations below. *)
Definition steel (EI : Q) : Material :=
  {| name := "steel"; properties := {[ "EI"%string := EI ]} |}.

Definition document (j2 : Q) : Env := {| floatVal := fun _ => JS.Fin j2 |}.

Definition page (j2 other : Q) : Env :=
  {| floatVal := fun name =>
       if String.eqb name "j2" then JS.Fin j2 else JS.Fin other |}.

(** * Properties *)

(** ** Arithmetic of the number model *)

(** Evaluate the lifted arithmetic on finite operands; a division stops
    at the test of its divisor. *)
Ltac js_eval :=
  cbn [JS.add JS.sub JS.mul JS.div JS.neg JS.pow JS.lift2 JS.to_number
       JS.of_bool load_number load_property option_map].

(** Present the powers of the code to [ring] and [field]. *)
Ltac fold_powers :=
  repeat match goal with
    | |- context [Qpower_positive ?a ?n] =>
        change (Qpower_positive a n) with (Qpower a (Zpos n))
    end.

Lemma Qeq_bool_false (p q : Q) : ~ p == q -> Qeq_bool p q = false.
Proof.
  intros H. destruct (Qeq_bool p q) eqn:E; [|reflexivity].
  apply Qeq_bool_iff in E. contradiction.
Qed.

Lemma Qle_bool_false (p q : Q) : q < p -> Qle_bool p q = false.
Proof.
  intros H. destruct (Qle_bool p q) eqn:E; [|reflexivity].
  apply Qle_bool_iff in E. apply Qle_not_lt in E. contradiction.
Qed.

Lemma Qle_bool_true (p q : Q) : p <= q -> Qle_bool p q = true.
Proof. apply Qle_bool_iff. Qed.

Lemma in_span (x L : Q) :
  0 <= x <= L -> (JS.geb (JS.Fin x) (JS.Fin 0) && JS.leb (JS.Fin x) (JS.Fin L)) = true.
Proof.
  intros [H0 HL]. unfold JS.geb, JS.leb.
  now rewrite !Qle_bool_true.
Qed.

Lemma out_of_span (x L : Q) :
  ~ (0 <= x <= L) -> (JS.geb (JS.Fin x) (JS.Fin 0) && JS.leb (JS.Fin x) (JS.Fin L)) = false.
Proof.
  intros H. unfold JS.geb, JS.leb.
  destruct (Qle_bool 0 x) eqn:E0; [|reflexivity].
  destruct (Qle_bool x L) eqn:EL; [|reflexivity].
  apply Qle_bool_iff in E0, EL. tauto.
Qed.

#[global] Instance equiv_Equivalence : Equivalence JS.equiv.
Proof.
  split.
  - intros [p|]; simpl; [reflexivity | exact I].
  - intros [p|] [q|]; simpl; try tauto. intros H. now symmetry.
  - intros [p|] [q|] [r|]; simpl; try tauto. intros H1 H2. now rewrite H1.
Qed.

(** [toFixed] does not see the representation of the rational. *)
Lemma toFixed2_equiv (a b : JS.number) : JS.equiv a b -> JS.toFixed2 a = JS.toFixed2 b.
Proof.
  destruct a as [p|], b as [q|]; try (simpl; tauto).
  unfold JS.equiv, JS.toFixed2. intros H. cbv zeta.
  assert (Hf : Qfloor (Qabs p * 100 + (1 # 2)) = Qfloor (Qabs q * 100 + (1 # 2)))
    by now rewrite H.
  assert (Hs : Qle_bool 0 p = Qle_bool 0 q).
  { destruct (Qle_bool 0 q) eqn:E.
    - apply Qle_bool_iff. apply Qle_bool_iff in E. now rewrite H.
    - destruct (Qle_bool 0 p) eqn:E'; [|reflexivity].
      apply Qle_bool_iff in E'. rewrite H in E'. apply Qle_bool_iff in E'. congruence. }
  now rewrite Hf, Hs.
Qed.

(** A double has one rational value. *)
Lemma value_is_Qeq (f : float) (p q : Q) :
  p == q -> Double.value_is f p -> Double.value_is f q.
Proof.
  unfold Double.value_is. destruct (Double.to_Q f) as [r|]; [|tauto].
  intros Hpq Hp. now rewrite Hp.
Qed.



(** [toFixed] rounds ties away from zero and keeps the sign of a
    negative number that rounds to zero. *)
Example toFixed2_round_up : JS.toFixed2 (JS.Fin (1005 # 1000)) = "1.01"%string.
Proof. reflexivity. Qed.
Example toFixed2_negative : JS.toFixed2 (JS.Fin (- (1 # 1000))) = "-0.00"%string.
Proof. reflexivity. Qed.
Example toFixed2_zero : JS.toFixed2 (JS.Fin 0) = "0.00"%string.
Proof. reflexivity. Qed.

(** ** The simply supported beam *)

Section SimplySupported.

Variables (beam : Beam) (env : Env).

Let L : Q := primarySpan beam.

(** C2.  For a beam of span [L] and stiffness [EI] under the scalar load
    [w], the deflection evaluator returns the point [{x, y}] where, for
    [0 <= x <= L], [y] is [-((w*x)/(24*EI))*(L^3 - 2*L*x^2 + x^3)*1000]
    (a non-finite number if [EI] is zero), and [y] is [0] for any other
    [x]. *)
Theorem simplySupported_deflection (EI w x : Q) :
  properties (material beam) !! "EI"%string = Some EI ->
  exists v : JS.number,
    simplySupported.getDeflectionEquation beam (Scalar w) env x
      = Ok {| x := x; y := Num v |}
    /\ (0 <= x <= L -> ~ EI == 0 -> JS.equiv v (JS.Fin (deflectionFormula L EI w x)))
    /\ (0 <= x <= L -> EI == 0 -> v = JS.NaN)
    /\ (~ (0 <= x <= L) -> v = JS.Fin 0).
Proof.
  intros HEI. unfold simplySupported.getDeflectionEquation. rewrite HEI.
  cbv zeta. eexists. split; [reflexivity|]. fold L.
  repeat split.
  - intros Hx Hnz. rewrite in_span by exact Hx. js_eval.
    rewrite Qeq_bool_false.
    + js_eval. cbn [JS.equiv]. unfold deflectionFormula. fold_powers. ring.
    + intros H. apply Hnz. apply (Qmult_inj_l EI 0 24); [discriminate|].
      rewrite H. ring.
  - intros Hx Hz. rewrite in_span by exact Hx. js_eval.
    assert (Hd : Qeq_bool (24 * EI) 0 = true)
      by (apply Qeq_bool_iff; rewrite Hz; ring).
    now rewrite Hd.
  - intros Hx. now rewrite out_of_span.
Qed.

(** C8.  Strictly outside the span ([x < 0] or [x > L]) the deflection,
    the bending moment and the shear force are all [0]. *)
Theorem simplySupported_zero_outside (load : Load) (x : Q) :
  x < 0 \/ L < x ->
  simplySupported.getDeflectionEquation beam load env x
    = Ok {| x := x; y := Num (JS.Fin 0) |}
  /\ simplySupported.getBendingMomentEquation beam load env x
    = Ok {| x := x; y := Num (JS.Fin 0) |}
  /\ simplySupported.getShearForceEquation beam load env x
    = Ok {| x := x; y := Num (JS.Fin 0) |}.
Proof.
  intros Hx.
  assert (Hout : ~ (0 <= x <= L)) by (intros [H0 HL]; destruct Hx; lra).
  unfold simplySupported.getDeflectionEquation,
    simplySupported.getBendingMomentEquation,
    simplySupported.getShearForceEquation.
  cbv zeta. fold L. now rewrite !out_of_span.
Qed.

End SimplySupported.

(** For [L = 4], [EI = 5000], [w = 10] at midspan. *)
Lemma simplySupported_deflection_witness :
  properties (material (new_Beam 4 0 (steel 5000))) !! "EI"%string = Some 5000
  /\ exists v : JS.number,
       simplySupported.getDeflectionEquation (new_Beam 4 0 (steel 5000))
         (Scalar 10) (document 1) 2
       = Ok {| x := 2; y := Num v |}
       /\ (0 <= 2 <= 4 -> ~ 5000 == 0 ->
           JS.equiv v (JS.Fin (deflectionFormula 4 5000 10 2)))
       /\ (0 <= 2 <= 4 -> 5000 == 0 -> v = JS.NaN)
       /\ (~ (0 <= 2 <= 4) -> v = JS.Fin 0).
Proof.
  split; [reflexivity|].
  apply (simplySupported_deflection (new_Beam 4 0 (steel 5000)) (document 1)
           5000 10 2).
  reflexivity.
Defined.

(** At [x = 5], beyond a span of [4]. *)
Lemma simplySupported_zero_outside_witness :
  (5 < 0 \/ 4 < 5)
  /\ simplySupported.getDeflectionEquation (new_Beam 4 0 (steel 5000))
       (Scalar 10) (document 1) 5
     = Ok {| x := 5; y := Num (JS.Fin 0) |}
  /\ simplySupported.getBendingMomentEquation (new_Beam 4 0 (steel 5000))
       (Scalar 10) (document 1) 5
     = Ok {| x := 5; y := Num (JS.Fin 0) |}
  /\ simplySupported.getShearForceEquation (new_Beam 4 0 (steel 5000))
       (Scalar 10) (document 1) 5
     = Ok {| x := 5; y := Num (JS.Fin 0) |}.
Proof.
  assert (H : 5 < 0 \/ 4 < 5) by (right; reflexivity).
  split; [exact H|].
  exact (simplySupported_zero_outside (new_Beam 4 0 (steel 5000)) (document 1)
           (Scalar 10) 5 H).
Defined.


(** A span of [4] under the load [10]: the moment at [x = 1] and at
    [x = 3] is [-15], in doubles as in exact arithmetic. *)
Example moment_exact_on_integers :
  Double.value_is (Double.getBendingMomentEquation 4 10 1) (momentFormula 4 10 1)
  /\ Double.value_is (Double.getBendingMomentEquation 4 10 3) (momentFormula 4 10 3)
  /\ momentFormula 4 10 1 == - 15.
Proof. repeat split; vm_compute; reflexivity. Qed.


(** The boundary values of the specification, for [L = 4], [EI = 5000]
    and [w = 10]. *)
Example simplySupported_boundary_values :
  let b := new_Beam 4 0 (steel 5000) in
  let e := document 1 in
  (exists m, simplySupported.getBendingMomentEquation b (Scalar 10) e 0
              = Ok {| x := 0; y := Num (JS.Fin m) |} /\ m == 0)
  /\ (exists m, simplySupported.getBendingMomentEquation b (Scalar 10) e 4
                = Ok {| x := 4; y := Num (JS.Fin m) |} /\ m == 0)
  /\ (exists d, simplySupported.getDeflectionEquation b (Scalar 10) e 0
                = Ok {| x := 0; y := Num (JS.Fin d) |} /\ d == 0)
  /\ (exists d, simplySupported.getDeflectionEquation b (Scalar 10) e 4
                = Ok {| x := 4; y := Num (JS.Fin d) |} /\ d == 0)
  /\ (exists v, simplySupported.getShearForceEquation b (Scalar 10) e 2
                = Ok {| x := 2; y := Num (JS.Fin v) |} /\ v == 0).
Proof.
  cbv zeta. repeat split; eexists; (split; [vm_compute; reflexivity | reflexivity]).
Qed.

(** ** The two-span beam, scalar load *)


(** Two spans of [1] under the load [24]: the three doubles are exact,
    [9], [30] and [9]. *)
Example reactions_exact_on_integers :
  let '(_, R1, R2, R3) := reactionFormulas 1 1 24 in
  let '(_, r1, r2, r3) := Double.reactions 1 1 24 in
  Double.value_is r1 R1 /\ Double.value_is r2 R2 /\ Double.value_is r3 R3
  /\ R1 == 9 /\ R2 == 30 /\ R3 == 9.
Proof. vm_compute. repeat split; reflexivity. Qed.


(** The chain of guards of the shear force, for the value [L] the code
    holds for [L1 + L2]. *)
Lemma shearBranch_Fin (L1 L2 L x : Q) :
  twoSpanUnequalA.shearBranch (JS.Fin L1) (JS.Fin L2) (JS.Fin L) (JS.Fin x)
  = if Qeq_bool x 0 then twoSpanUnequalA.AtZero
    else if negb (Qle_bool L1 x) then twoSpanUnequalA.BeforeL1
    else if Qeq_bool x L1 then twoSpanUnequalA.AtL1
    else if Qeq_bool x L2 then twoSpanUnequalA.AtL2
    else if negb (Qle_bool L 1) then twoSpanUnequalA.Chained
    else if Qeq_bool x L then twoSpanUnequalA.AtL
    else twoSpanUnequalA.NoBranch.
Proof.
  unfold twoSpanUnequalA.shearBranch, JS.eqb, JS.ltb, JS.of_bool.
  destruct (Qeq_bool x 0); [reflexivity|].
  destruct (Qle_bool L1 x) eqn:E1; [|reflexivity]. cbn [negb].
  destruct (Qeq_bool x L1) eqn:E2; [reflexivity|].
  destruct (Qeq_bool x L2); [reflexivity|].
  apply Qle_bool_iff in E1. apply Qeq_bool_neq in E2.
  assert (Hlt : L1 < x).
  { destruct (Qlt_le_dec L1 x) as [H|H]; [exact H|].
    exfalso. apply E2. now apply Qle_antisym. }
  now rewrite (Qle_bool_false x L1 Hlt).
Qed.

(** Case analysis on the comparisons left in the goal. *)
Ltac decide_guards :=
  repeat match goal with
    | |- context [Qeq_bool ?a ?b] =>
        let E := fresh "E" in
        destruct (Qeq_bool a b) eqn:E;
        [apply Qeq_bool_iff in E | apply Qeq_bool_neq in E]
    | |- context [Qle_bool ?a ?b] =>
        let E := fresh "E" in
        destruct (Qle_bool a b) eqn:E;
        [apply Qle_bool_iff in E
        | assert (b < a) by (destruct (Qlt_le_dec b a) as [?|Hle];
                             [assumption | apply Qle_bool_iff in Hle; congruence]);
          clear E]
    end; cbn [negb].

(** C4, as the code has it.  The branch guarded by [L1 < x < L] is not
    dead: on spans [2] and [3] it runs at [x = 4].  Whatever value [L]
    the code holds for [L1 + L2], the branch runs for every [x] of the
    range [L1 < x < L] other than [0] and [L2] when [L] exceeds [1], and
    it never runs when an earlier guard holds ([x] is [0], below [L1],
    [L1] or [L2]). *)
Theorem chained_branch_reachable :
  shearBranchOf (new_Beam 2 3 (steel 5000)) 4 = twoSpanUnequalA.Chained
  /\ (forall L1 L2 L x : Q,
        ~ x == 0 -> L1 < x -> x < L -> ~ x == L2 -> 1 < L ->
        twoSpanUnequalA.shearBranch (JS.Fin L1) (JS.Fin L2) (JS.Fin L) (JS.Fin x)
        = twoSpanUnequalA.Chained)
  /\ (forall L1 L2 L x : Q,
        x == 0 \/ x < L1 \/ x == L1 \/ x == L2 ->
        twoSpanUnequalA.shearBranch (JS.Fin L1) (JS.Fin L2) (JS.Fin L) (JS.Fin x)
        <> twoSpanUnequalA.Chained).
Proof.
  split; [reflexivity|]. split.
  - intros L1 L2 L x H0 H1 HL H2 H. rewrite shearBranch_Fin.
    decide_guards; try reflexivity; try contradiction; lra.
  - intros L1 L2 L x H. rewrite shearBranch_Fin.
    decide_guards; try discriminate; exfalso; destruct H as [H|[H|[H|H]]];
      try contradiction; lra.
Qed.

(** The shear-force evaluator assigns by the branch that runs. *)
Lemma shearForce_by_branch (env e : Env) (beam : Beam) (load : Load) (x : Q) :
  let L1 : JS.number := primarySpan beam in
  let L2 : JS.number := secondarySpan beam in
  let w := load_number load in
  let '(_, R1, R2, _) := twoSpanUnequalA.reactions L1 L2 w in
  twoSpanUnequalA.getShearForceEquation env beam load e x
  = Ok {| x := x;
          y := Num match shearBranchOf beam x with
                   | twoSpanUnequalA.AtZero => R1
                   | twoSpanUnequalA.BeforeL1 => R1 - w * x
                   | twoSpanUnequalA.AtL1 => R1 - w * L1
                   | twoSpanUnequalA.AtL2 => R1 + R2 - w * L1
                   | twoSpanUnequalA.Chained => R1 + R2 - w * x
                   | twoSpanUnequalA.AtL => R1 + R2 - w * (L1 + L2)
                   | twoSpanUnequalA.NoBranch => 0
                   end%js |}.
Proof. reflexivity. Qed.

(** C4, as the specification states it, fails: on a beam of spans [2]
    and [3] the branch runs at [x = 4]. *)
Lemma chained_branch_not_dead :
  ~ (forall (beam : Beam) (x : Q), shearBranchOf beam x <> twoSpanUnequalA.Chained).
Proof.
  intros H. apply (H (new_Beam 2 3 (steel 5000)) 4). reflexivity.
Qed.

(** C3.  The scalar-load deflection is not [0] beyond the second span:
    the second guard reads [L1 <= L1 + L2] and holds for every [x].  On
    spans [1] and [1] with load [24] the evaluator returns [-2000] at
    [x = 3]. *)
Theorem deflection_beyond_spans :
  exists v : Q,
    twoSpanUnequalA.getDeflectionEquation (document 1)
      (new_Beam 1 1 (steel 1000000000000000000)) (Scalar 24) (document 1) 3
      = Ok {| x := 3; y := Num (JS.Fin v) |}
    /\ v == - 2000.
Proof. eexists. split; [vm_compute; reflexivity | reflexivity]. Qed.

(** It is not [0] before the first span either: no guard tests [0 <= x]. *)
Lemma deflection_before_spans :
  exists v : Q,
    twoSpanUnequalA.getDeflectionEquation (document 1)
      (new_Beam 1 1 (steel 1000000000000000000)) (Scalar 24) (document 1) (- 1)
      = Ok {| x := - 1; y := Num (JS.Fin v) |}
    /\ v == - 2000.
Proof. eexists. split; [vm_compute; reflexivity | reflexivity]. Qed.

(** ** The two-span beam, structured load *)

(** On the first span the evaluator returns the first expression. *)
Lemma bendingMoment_first_span (env e : Env) (beam : Beam) (load : Load) (x l1 : Q) :
  L1 beam = Some l1 -> 0 < x <= l1 ->
  twoSpanUnequalB.getBendingMomentEquation env beam load e x
  = Ok {| x := x;
          y := Str (JS.toFixed2
                      (twoSpanUnequalB.momentFirstSpan
                         (JS.to_number (load_property R1 load))
                         (JS.to_number (load_property w1 load)) x)) |}.
Proof.
  intros Hl1 [H0 Hx].
  unfold twoSpanUnequalB.getBendingMomentEquation. cbv zeta. rewrite Hl1.
  unfold JS.eqb, JS.gtb, JS.ltb, JS.leb. cbn [JS.to_number].
  rewrite (Qeq_bool_false x 0) by lra.
  rewrite (Qle_bool_false x 0) by lra.
  rewrite (Qle_bool_true x l1) by lra.
  reflexivity.
Qed.

(** C6.  The bending moment is continuous at [x = L1]: there the
    expression of the first span, [R1*L1 - w1*L1^2/2], equals the
    expression of the second span with [x2 = 0]; on a beam that carries
    [L1] and [L2] the evaluator returns that common value at [x = L1]. *)
Theorem moment_continuous_at_L1 (R1 R2 R3 w1 w2 L1 L2 : Q) :
  0 < L1 -> 0 < L2 ->
  JS.equiv (twoSpanUnequalB.momentFirstSpan R1 w1 L1) (R1 * L1 - w1 * L1 ^ 2 / 2)%Q
  /\ JS.equiv (twoSpanUnequalB.momentFirstSpan R1 w1 L1)
       (twoSpanUnequalB.momentSecondSpan R1 R2 w1 w2 L1 L1)
  /\ forall (env env' : Env) (p s : Q) (m : Material),
       twoSpanUnequalB.getBendingMomentEquation env
         {| primarySpan := p; secondarySpan := s; material := m;
            L1 := Some L1; L2 := Some L2 |}
         (Structured {| w1 := w1; w2 := w2; R1 := R1; R2 := R2; R3 := R3 |})
         env' L1
       = Ok {| x := L1;
               y := Str (JS.toFixed2
                           (twoSpanUnequalB.momentSecondSpan R1 R2 w1 w2 L1 L1)) |}.
Proof.
  intros H1 H2.
  assert (Hseg : JS.equiv (twoSpanUnequalB.momentFirstSpan R1 w1 L1)
                   (twoSpanUnequalB.momentSecondSpan R1 R2 w1 w2 L1 L1)).
  { unfold twoSpanUnequalB.momentFirstSpan, twoSpanUnequalB.momentSecondSpan.
    cbv zeta. js_eval. rewrite !(Qeq_bool_false 2 0) by discriminate.
    js_eval. cbn [JS.equiv]. fold_powers. field. }
  split; [|split; [exact Hseg|]].
  - unfold twoSpanUnequalB.momentFirstSpan. js_eval.
    rewrite !(Qeq_bool_false 2 0) by discriminate. js_eval.
    cbn [JS.equiv]. fold_powers. ring.
  - intros env env' p s m.
    rewrite (bendingMoment_first_span _ _ _ _ _ L1) by (reflexivity || split; lra).
    rewrite <- (toFixed2_equiv _ _ Hseg). reflexivity.
Qed.

(** Spans [2] and [3], loads [10], reactions [7], [30], [13]. *)
Lemma moment_continuous_at_L1_witness :
  0 < 2 /\ 0 < 3
  /\ JS.equiv (twoSpanUnequalB.momentFirstSpan (JS.Fin 7) (JS.Fin 10) (JS.Fin 2))
       (JS.Fin (7 * 2 - 10 * 2 ^ 2 / 2))
  /\ JS.equiv (twoSpanUnequalB.momentFirstSpan (JS.Fin 7) (JS.Fin 10) (JS.Fin 2))
       (twoSpanUnequalB.momentSecondSpan (JS.Fin 7) (JS.Fin 30) (JS.Fin 10)
          (JS.Fin 10) (JS.Fin 2) (JS.Fin 2))
  /\ forall (env env' : Env) (p s : Q) (m : Material),
       twoSpanUnequalB.getBendingMomentEquation env
         {| primarySpan := p; secondarySpan := s; material := m;
            L1 := Some 2; L2 := Some 3 |}
         (Structured {| w1 := 10; w2 := 10; R1 := 7; R2 := 30; R3 := 13 |})
         env' 2
       = Ok {| x := 2;
               y := Str (JS.toFixed2
                           (twoSpanUnequalB.momentSecondSpan (JS.Fin 7) (JS.Fin 30)
                              (JS.Fin 10) (JS.Fin 10) (JS.Fin 2) (JS.Fin 2))) |}.
Proof.
  assert (H2 : 0 < 2) by reflexivity.
  assert (H3 : 0 < 3) by reflexivity.
  split; [exact H2|]. split; [exact H3|].
  exact (moment_continuous_at_L1 7 30 13 10 10 2 3 H2 H3).
Defined.

(** C10.  With a structured load the deflection evaluator returns
    exactly what the shear-force evaluator returns, for every beam, load
    and [x]; so it does not depend on the material of the beam. *)
Theorem structured_deflection_is_shear :
  (forall (env env' e e' : Env) (beam : Beam) (load : Load) (x : Q),
     twoSpanUnequalB.getDeflectionEquation env beam load e x
     = twoSpanUnequalB.getShearForceEquation env' beam load e' x)
  /\ (forall (env e : Env) (p s : Q) (m m' : Material) (l1 l2 : option Q)
        (load : Load) (x : Q),
        twoSpanUnequalB.getDeflectionEquation env
          {| primarySpan := p; secondarySpan := s; material := m;
             L1 := l1; L2 := l2 |} load e x
        = twoSpanUnequalB.getDeflectionEquation env
          {| primarySpan := p; secondarySpan := s; material := m';
             L1 := l1; L2 := l2 |} load e x).
Proof. split; reflexivity. Qed.

(** On a beam built by the constructor, [L1] and [L2] are [undefined]
    and every range test fails: away from [x = 0] the structured-load
    deflection is the string of zero. *)
Lemma structured_deflection_constructor_beam
    (env e : Env) (p s : Q) (m : Material) (load : Load) (x : Q) :
  ~ x == 0 ->
  twoSpanUnequalB.getDeflectionEquation env (new_Beam p s m) load e x
  = Ok {| x := x; y := Str "0.00" |}.
Proof.
  intros Hx. unfold twoSpanUnequalB.getDeflectionEquation. cbv zeta.
  unfold new_Beam, JS.eqb.
  cbn [L1 L2 JS.to_number JS.add JS.lift2 JS.leb JS.gtb JS.ltb].
  rewrite (Qeq_bool_false x 0 Hx), !andb_false_r. reflexivity.
Qed.

(** Beyond both spans it returns the string of
    [R1 + R2 + R3 - w1*L1 - w2*L2], here ["3.00"]. *)
Lemma structured_deflection_beyond_spans :
  twoSpanUnequalB.getDeflectionEquation (document 1)
    {| primarySpan := 1; secondarySpan := 1; material := steel 5000;
       L1 := Some 1; L2 := Some 1 |}
    (Structured {| w1 := 1; w2 := 1; R1 := 3; R2 := 1; R3 := 1 |}) (document 1) 3
  = Ok {| x := 3; y := Str "3.00" |}.
Proof. reflexivity. Qed.

(** ** The dispatcher *)

Section Dispatcher.

Variables (rev : Revision) (env : Env) (b : Beam) (l : Load).
Variable method : Analyzer -> Env -> Beam -> Load -> Equation.

Lemma analyzer_lookup (condition : string) :
  analyzer rev !! condition
  = if decide ("simply-supported"%string = condition) then Some simplySupported
    else if decide ("two-span-unequal"%string = condition)
         then Some (twoSpanUnequal rev)
         else None.
Proof. unfold analyzer. now rewrite lookup_insert, lookup_singleton. Qed.

(** The two registered conditions give the bundle [{beam, load, equation}]. *)
Lemma dispatch_simply_supported :
  dispatch method rev env b l "simply-supported"
  = Ok {| beam := b; load := l;
          equation := method simplySupported env b l |}.
Proof. reflexivity. Qed.

Lemma dispatch_two_span_unequal :
  dispatch method rev env b l "two-span-unequal"
  = Ok {| beam := b; load := l;
          equation := method (twoSpanUnequal rev) env b l |}.
Proof. reflexivity. Qed.

(** A condition that is neither registered nor a name of
    [Object.prototype] fails with [Error('Invalid condition')]. *)
Lemma dispatch_invalid_condition (condition : string) :
  condition <> "simply-supported"%string ->
  condition <> "two-span-unequal"%string ->
  condition ∉ Object_prototype ->
  dispatch method rev env b l condition = Throw (Error "Invalid condition").
Proof.
  intros H1 H2 H3. unfold dispatch, get_property. rewrite analyzer_lookup.
  rewrite !decide_False by congruence.
  now rewrite bool_decide_eq_false_2.
Qed.

(** A name of [Object.prototype] fails with a [TypeError] instead. *)
Lemma dispatch_inherited (condition : string) :
  condition ∈ Object_prototype ->
  dispatch method rev env b l condition = Throw TypeError.
Proof.
  intros H. unfold dispatch, get_property. rewrite analyzer_lookup.
  assert (H1 : "simply-supported"%string <> condition).
  { intros <-. revert H. unfold Object_prototype.
    rewrite !elem_of_cons, elem_of_nil. intuition discriminate. }
  assert (H2 : "two-span-unequal"%string <> condition).
  { intros <-. revert H. unfold Object_prototype.
    rewrite !elem_of_cons, elem_of_nil. intuition discriminate. }
  rewrite !decide_False by assumption.
  now rewrite bool_decide_eq_true_2.
Qed.

(** No unregistered condition returns a result. *)
Lemma dispatch_unregistered_throws (condition : string) :
  condition <> "simply-supported"%string ->
  condition <> "two-span-unequal"%string ->
  exists e : exn, dispatch method rev env b l condition = Throw e.
Proof.
  intros H1 H2. destruct (decide (condition ∈ Object_prototype)) as [H|H].
  - exists TypeError. now apply dispatch_inherited.
  - exists (Error "Invalid condition"). now apply dispatch_invalid_condition.
Qed.

(** What a successful dispatch returns. *)
Lemma dispatch_Ok (condition : string) (a : Analysis) :
  dispatch method rev env b l condition = Ok a ->
  (condition = "simply-supported"%string
   /\ equation a = method simplySupported env b l)
  \/ (condition = "two-span-unequal"%string
      /\ equation a = method (twoSpanUnequal rev) env b l).
Proof.
  unfold dispatch, get_property. rewrite analyzer_lookup.
  destruct (decide ("simply-supported"%string = condition)) as [<-|H1].
  { intros [= <-]. now left. }
  destruct (decide ("two-span-unequal"%string = condition)) as [<-|H2].
  { intros [= <-]. now right. }
  destruct (bool_decide _); discriminate.
Qed.

(** C1.  The condition ["toString"] is not registered, yet none of the
    three operations fails with [Error('Invalid condition')]: the lookup
    finds [Object.prototype.toString] and the call of its missing
    method raises a [TypeError]. *)
Theorem toString_condition_TypeError :
  getDeflection rev env b l "toString" = Throw TypeError
  /\ getBendingMoment rev env b l "toString" = Throw TypeError
  /\ getShearForce rev env b l "toString" = Throw TypeError.
Proof. repeat split. Qed.

End Dispatcher.

(** ** External state *)

(** C9, as the code has it.  An evaluator returned by an analysis
    operation is a function of the beam, the load, [x] and, for the
    scalar-load two-span deflection only, of the value [floatVal("j2")]
    at the time of the call: two evaluators obtained for the same beam,
    load and condition return the same point at the same [x], in any two
    environments that agree on [j2] where the evaluator reads it. *)
Theorem evaluator_inputs (rev : Revision) (op : Operation) (condition : string)
    (c c' e e' : Env) (beam : Beam) (load : Load) (a a' : Analysis) (x : Q) :
  analyse op rev c beam load condition = Ok a ->
  analyse op rev c' beam load condition = Ok a' ->
  (reads_j2 rev op condition = true -> floatVal e "j2" = floatVal e' "j2") ->
  equation a e x = equation a' e' x.
Proof.
  intros Ha Ha' Hj2.
  destruct op; unfold analyse, getDeflection, getBendingMoment, getShearForce in *;
    apply dispatch_Ok in Ha, Ha';
    destruct Ha as [[-> ->]|[-> ->]], Ha' as [[Hc ->]|[Hc ->]];
    try discriminate Hc; try reflexivity;
    destruct rev; try reflexivity.
  cbn in Hj2. cbn [twoSpanUnequal getDeflectionEquation].
  unfold twoSpanUnequalA.getDeflectionEquation. cbv zeta.
  now rewrite Hj2.
Qed.

(** Two evaluators built and called in four environments, of which the
    two of the calls agree on [j2] only. *)
Lemma evaluator_inputs_witness :
  exists a a' : Analysis,
    getDeflection RevA (page 1 5) (new_Beam 1 1 (steel 1000000000000000000))
      (Scalar 24) "two-span-unequal" = Ok a
    /\ getDeflection RevA (page 2 6) (new_Beam 1 1 (steel 1000000000000000000))
        (Scalar 24) "two-span-unequal" = Ok a'
    /\ (reads_j2 RevA Deflection "two-span-unequal" = true ->
        floatVal (page 3 7) "j2" = floatVal (page 3 8) "j2")
    /\ equation a (page 3 7) 3 = equation a' (page 3 8) 3.
Proof.
  do 2 eexists.
  split; [reflexivity|]. split; [reflexivity|]. split; [reflexivity|].
  apply (evaluator_inputs RevA Deflection "two-span-unequal"
           (page 1 5) (page 2 6) (page 3 7) (page 3 8)
           (new_Beam 1 1 (steel 1000000000000000000)) (Scalar 24));
    reflexivity.
Defined.

(** C9, as the specification states it, fails: one evaluator, called
    twice at [x = 3], returns [-2000] while [j2] is [1] and [-4000] once
    [j2] is [2]. *)
Lemma evaluator_reads_external_state :
  exists (a : Analysis) (v v' : Q),
    getDeflection RevA (document 1) (new_Beam 1 1 (steel 1000000000000000000))
      (Scalar 24) "two-span-unequal" = Ok a
    /\ equation a (document 1) 3 = Ok {| x := 3; y := Num (JS.Fin v) |}
    /\ equation a (document 2) 3 = Ok {| x := 3; y := Num (JS.Fin v') |}
    /\ v == - 2000 /\ v' == - 4000 /\ ~ v == v'.
Proof.
  do 3 eexists. split; [reflexivity|].
  split; [vm_compute; reflexivity|].
  split; [vm_compute; reflexivity|].
  repeat split. discriminate.
Qed.

(** * Further properties *)

(** ** The simply supported beam: inputs of the wrong shape *)

(** A material without the property [EI] raises no error: inside the
    span the deflection is [NaN], for any load. *)
Theorem deflection_missing_EI (beam : Beam) (env : Env) (load : Load) (x : Q) :
  properties (material beam) !! "EI"%string = None ->
  0 <= x <= primarySpan beam ->
  simplySupported.getDeflectionEquation beam load env x
  = Ok {| x := x; y := Num JS.NaN |}.
Proof.
  intros HEI Hx. unfold simplySupported.getDeflectionEquation. cbv zeta.
  rewrite HEI, in_span by exact Hx. js_eval.
  now destruct (load_number load).
Qed.

(** A load object given to the simply supported analyzer raises no
    error either: inside the span all three evaluators return [NaN],
    whatever the material. *)
Theorem simplySupported_structured_load
    (beam : Beam) (env : Env) (s : StructuredLoad) (x : Q) :
  0 <= x <= primarySpan beam ->
  simplySupported.getDeflectionEquation beam (Structured s) env x
    = Ok {| x := x; y := Num JS.NaN |}
  /\ simplySupported.getBendingMomentEquation beam (Structured s) env x
    = Ok {| x := x; y := Num JS.NaN |}
  /\ simplySupported.getShearForceEquation beam (Structured s) env x
    = Ok {| x := x; y := Num JS.NaN |}.
Proof.
  intros Hx.
  unfold simplySupported.getDeflectionEquation,
    simplySupported.getBendingMomentEquation,
    simplySupported.getShearForceEquation.
  cbv zeta. rewrite !in_span by exact Hx. now js_eval.
Qed.

(** ** The two-span beam under a scalar load (revision A) *)

Section ScalarShear.

Variables (c env : Env) (w : Q).

(** The shear force reads [EI] and [floatVal("j2")] but uses neither:
    it is the same on any two beams with the same spans, in any
    environments. *)
Theorem shear_ignores_material_and_j2
    (c' env' : Env) (beam beam' : Beam) (load : Load) (x : Q) :
  primarySpan beam = primarySpan beam' ->
  secondarySpan beam = secondarySpan beam' ->
  twoSpanUnequalA.getShearForceEquation c beam load env x
  = twoSpanUnequalA.getShearForceEquation c' beam' load env' x.
Proof.
  intros H1 H2. unfold twoSpanUnequalA.getShearForceEquation. cbv zeta.
  now rewrite H1, H2.
Qed.

End ScalarShear.

(** Which branch of the shear force runs, for the value [L] the code
    holds for [L1 + L2] and for every argument [x], [NaN] included.
    When [L] exceeds [1], the chained guard takes every finite [x]
    beyond [L1] other than [L2]: the branch [x == L] and the initial [0]
    are then out of reach. *)
Theorem shear_branch_table (L1 L2 L : Q) (x : JS.number) :
  let branch := twoSpanUnequalA.shearBranch (JS.Fin L1) (JS.Fin L2) (JS.Fin L) x in
  match x with
  | JS.NaN =>
      (0 < L -> branch = twoSpanUnequalA.Chained)
      /\ (L <= 0 -> branch = twoSpanUnequalA.NoBranch)
  | JS.Fin q =>
      (branch = twoSpanUnequalA.AtZero <-> q == 0)
      /\ (branch = twoSpanUnequalA.BeforeL1 <-> ~ q == 0 /\ q < L1)
      /\ (branch = twoSpanUnequalA.AtL1 <-> ~ q == 0 /\ q == L1)
      /\ (branch = twoSpanUnequalA.AtL2 <-> ~ q == 0 /\ L1 < q /\ q == L2)
      /\ (branch = twoSpanUnequalA.Chained
          <-> ~ q == 0 /\ L1 < q /\ ~ q == L2 /\ 1 < L)
      /\ (branch = twoSpanUnequalA.AtL
          <-> ~ q == 0 /\ L1 < q /\ ~ q == L2 /\ L <= 1 /\ q == L)
      /\ (branch = twoSpanUnequalA.NoBranch
          <-> ~ q == 0 /\ L1 < q /\ ~ q == L2 /\ L <= 1 /\ ~ q == L)
  end.
Proof.
  cbv zeta. destruct x as [q|].
  - rewrite shearBranch_Fin.
    decide_guards;
      repeat split; intros; try discriminate; try reflexivity; try assumption;
      try (exfalso; intuition lra); try lra.
  - unfold twoSpanUnequalA.shearBranch, JS.eqb, JS.ltb, JS.of_bool. cbn [negb].
    split; intros H.
    + now rewrite (Qle_bool_false L 0 H).
    + now rewrite (Qle_bool_true L 0 H).
Qed.

(** ** The two-span beam under a structured load *)

Ltac case_guards :=
  repeat match goal with
    | |- context [if ?b then _ else _] => destruct b
    end.

(** The only failure of the structured-load evaluators: given a number
    as load, the deflection and the shear force raise a [TypeError] at
    [x = 0], where they call [toFixed] on the missing [R1].  Everywhere
    else, and for the bending moment always, a point with a string [y]
    is returned. *)
Theorem structured_evaluators_failure
    (c env : Env) (beam : Beam) (load : Load) (x : Q) :
  let scalar_at_zero := (exists w : Q, load = Scalar w) /\ x == 0 in
  (exists s : string,
     twoSpanUnequalB.getBendingMomentEquation c beam load env x
     = Ok {| x := x; y := Str s |})
  /\ (scalar_at_zero ->
      twoSpanUnequalB.getDeflectionEquation c beam load env x = Throw TypeError
      /\ twoSpanUnequalB.getShearForceEquation c beam load env x = Throw TypeError)
  /\ (~ scalar_at_zero ->
      exists s : string,
        twoSpanUnequalB.getDeflectionEquation c beam load env x
        = Ok {| x := x; y := Str s |}
        /\ twoSpanUnequalB.getShearForceEquation c beam load env x
           = Ok {| x := x; y := Str s |}).
Proof.
  cbv zeta. split; [|split].
  - unfold twoSpanUnequalB.getBendingMomentEquation. cbv zeta.
    unfold toFixed. eexists. reflexivity.
  - intros [[w ->] Hx].
    unfold twoSpanUnequalB.getDeflectionEquation,
      twoSpanUnequalB.getShearForceEquation, JS.eqb. cbv zeta.
    apply Qeq_bool_iff in Hx. now rewrite Hx.
  - intros Hn.
    unfold twoSpanUnequalB.getDeflectionEquation,
      twoSpanUnequalB.getShearForceEquation, JS.eqb. cbv zeta.
    destruct (Qeq_bool x 0) eqn:E.
    + apply Qeq_bool_iff in E. destruct load as [w|s].
      * exfalso. apply Hn. split; [now exists w | exact E].
      * eexists. split; reflexivity.
    + case_guards; eexists; split; reflexivity.
Qed.

(** On a beam built by the [Beam] constructor the structured-load
    equations find no [L1] and [L2]: the bending moment is ["0.00"] at
    every [x], and so is the shear force away from [x = 0], whatever the
    load. *)
Theorem structured_constructor_beam
    (c env : Env) (p s : Q) (m : Material) (load : Load) (x : Q) :
  twoSpanUnequalB.getBendingMomentEquation c (new_Beam p s m) load env x
    = Ok {| x := x; y := Str "0.00" |}
  /\ (~ x == 0 ->
      twoSpanUnequalB.getShearForceEquation c (new_Beam p s m) load env x
      = Ok {| x := x; y := Str "0.00" |}).
Proof.
  split.
  - unfold twoSpanUnequalB.getBendingMomentEquation. cbv zeta.
    unfold new_Beam.
    cbn [L1 L2 JS.to_number JS.add JS.lift2 JS.leb JS.gtb JS.ltb].
    rewrite !andb_false_r. now destruct (JS.eqb x 0).
  - intros Hx. unfold twoSpanUnequalB.getShearForceEquation. cbv zeta.
    unfold new_Beam, JS.eqb.
    cbn [L1 L2 JS.to_number JS.add JS.lift2 JS.leb JS.gtb JS.ltb].
    rewrite (Qeq_bool_false x 0 Hx), !andb_false_r. reflexivity.
Qed.

(** Before the first support ([x < 0]) the three structured-load
    evaluators return ["0.00"], for any load, on every beam whose [L1]
    and [L2], where present, are not negative. *)
Theorem structured_before_beam (c env : Env) (beam : Beam) (load : Load) (x : Q) :
  (forall l : Q, L1 beam = Some l -> 0 <= l) ->
  (forall l : Q, L2 beam = Some l -> 0 <= l) ->
  x < 0 ->
  twoSpanUnequalB.getDeflectionEquation c beam load env x
    = Ok {| x := x; y := Str "0.00" |}
  /\ twoSpanUnequalB.getBendingMomentEquation c beam load env x
    = Ok {| x := x; y := Str "0.00" |}
  /\ twoSpanUnequalB.getShearForceEquation c beam load env x
    = Ok {| x := x; y := Str "0.00" |}.
Proof.
  intros H1 H2 Hx.
  assert (G0 : JS.eqb (JS.Fin x) (JS.Fin 0) = false)
    by (unfold JS.eqb; apply Qeq_bool_false; lra).
  assert (G1 : JS.gtb (JS.Fin x) (JS.Fin 0) = false)
    by (unfold JS.gtb, JS.ltb; now rewrite Qle_bool_true by lra).
  assert (G2 : JS.gtb (JS.Fin x) (JS.to_number (L1 beam)) = false).
  { destruct (L1 beam) as [l1|] eqn:E1; [|reflexivity].
    specialize (H1 l1 eq_refl). unfold JS.gtb, JS.ltb. cbn [JS.to_number].
    now rewrite Qle_bool_true by lra. }
  assert (G3 : JS.gtb (JS.Fin x)
                 (JS.add (JS.to_number (L1 beam)) (JS.to_number (L2 beam))) = false).
  { destruct (L1 beam) as [l1|] eqn:E1; [|reflexivity].
    destruct (L2 beam) as [l2|] eqn:E2; [|reflexivity].
    specialize (H1 l1 eq_refl). specialize (H2 l2 eq_refl).
    unfold JS.gtb, JS.ltb. js_eval. now rewrite Qle_bool_true by lra. }
  unfold twoSpanUnequalB.getDeflectionEquation,
    twoSpanUnequalB.getBendingMomentEquation,
    twoSpanUnequalB.getShearForceEquation.
  cbv zeta. rewrite G0, G1, G2, G3. cbn [andb]. repeat split; reflexivity.
Qed.

Section StructuredLoad.

Variables (c env : Env) (beam : Beam) (l1 l2 : Q) (s : StructuredLoad).
Hypothesis Hl1 : L1 beam = Some l1.
Hypothesis Hl2 : L2 beam = Some l2.

(** A number given as load raises no error away from [x = 0]: on both
    spans the three evaluators return the string ["NaN"]. *)
Theorem structured_scalar_load_NaN (w x : Q) :
  0 <= l1 -> 0 <= l2 -> 0 < x <= l1 + l2 ->
  twoSpanUnequalB.getBendingMomentEquation c beam (Scalar w) env x
    = Ok {| x := x; y := Str "NaN" |}
  /\ twoSpanUnequalB.getDeflectionEquation c beam (Scalar w) env x
    = Ok {| x := x; y := Str "NaN" |}
  /\ twoSpanUnequalB.getShearForceEquation c beam (Scalar w) env x
    = Ok {| x := x; y := Str "NaN" |}.
Proof.
  intros H1 H2 [H0 Hx].
  unfold twoSpanUnequalB.getBendingMomentEquation,
    twoSpanUnequalB.getDeflectionEquation,
    twoSpanUnequalB.getShearForceEquation,
    twoSpanUnequalB.momentFirstSpan, twoSpanUnequalB.momentSecondSpan.
  cbv zeta. rewrite Hl1, Hl2. js_eval. unfold JS.eqb, JS.gtb, JS.ltb, JS.leb.
  rewrite (Qeq_bool_false x 0), (Qle_bool_false x 0) by lra.
  rewrite (Qle_bool_true x (l1 + l2)) by lra. cbn [negb andb].
  destruct (Qle_bool x l1); cbn [negb andb]; repeat split; reflexivity.
Qed.

End StructuredLoad.

(** ** The dispatcher, all conditions *)

(** The outcome of an analysis operation is decided by the condition
    alone: a result (carrying the beam and the load it was given) for
    the two registered conditions, a [TypeError] for the names of
    [Object.prototype], [Error('Invalid condition')] for every other
    string. *)
Theorem dispatch_outcome (op : Operation) (rev : Revision) (env : Env)
    (b : Beam) (l : Load) (condition : string) :
  let registered := condition = "simply-supported"%string
                    \/ condition = "two-span-unequal"%string in
  ((exists a : Analysis, analyse op rev env b l condition = Ok a) <-> registered)
  /\ (forall a : Analysis,
        analyse op rev env b l condition = Ok a -> beam a = b /\ load a = l)
  /\ (analyse op rev env b l condition = Throw TypeError
      <-> condition ∈ Object_prototype)
  /\ (analyse op rev env b l condition = Throw (Error "Invalid condition")
      <-> ~ registered /\ condition ∉ Object_prototype).
Proof.
  cbv zeta.
  assert (Hop : exists method, analyse op = dispatch method)
    by (destruct op; eexists; reflexivity).
  destruct Hop as [method ->].
  set (registered := condition = "simply-supported"%string
                     \/ condition = "two-span-unequal"%string).
  set (r := dispatch method rev env b l condition).
  assert (Hreg : registered -> condition ∉ Object_prototype).
  { unfold Object_prototype. rewrite !not_elem_of_cons.
    intros [->| ->]; repeat split; solve [discriminate | apply not_elem_of_nil]. }
  assert (Hout : (registered /\ exists e, r = Ok {| beam := b; load := l; equation := e |})
                 \/ ((condition ∈ Object_prototype) /\ r = Throw TypeError)
                 \/ (~ registered /\ (condition ∉ Object_prototype)
                     /\ r = Throw (Error "Invalid condition"))).
  { destruct (decide (condition = "simply-supported"%string)) as [->|H1].
    { left. split; [now left|]. eexists. apply dispatch_simply_supported. }
    destruct (decide (condition = "two-span-unequal"%string)) as [->|H2].
    { left. split; [now right|]. eexists. apply dispatch_two_span_unequal. }
    destruct (decide (condition ∈ Object_prototype)) as [Hp|Hp].
    - right. left. split; [exact Hp|]. now apply dispatch_inherited.
    - right. right. split; [unfold registered; tauto|]. split; [exact Hp|].
      now apply dispatch_invalid_condition. }
  destruct Hout as [[Hr [e He]]|[[Hp He]|(Hn & Hp & He)]]; rewrite He.
  - specialize (Hreg Hr). split; [|split; [|split]].
    + split; [intros _; exact Hr | intros _; eexists; reflexivity].
    + now intros a [= <-].
    + split; [discriminate | contradiction].
    + split; [discriminate | tauto].
  - split; [|split; [|split]].
    + split; [intros [a Ha]; discriminate Ha | intros Hr; now apply Hreg in Hr].
    + discriminate.
    + tauto.
    + split; [discriminate | tauto].
  - split; [|split; [|split]].
    + split; [intros [a Ha]; discriminate Ha | contradiction].
    + discriminate.
    + split; [discriminate | contradiction].
    + tauto.
Qed.

(** ** The plotter *)

(** [plot] fails exactly when the options argument is missing.  The
    configuration it builds has one dataset, which carries the sampled
    [y] values against the [x] values as labels, and none of its five
    texts is empty. *)
Theorem plot_config (data : AnalysisPlotter.Data)
    (options : option AnalysisPlotter.Options) :
  (AnalysisPlotter.plot data options = Throw TypeError <-> options = None)
  /\ forall o : AnalysisPlotter.Options, options = Some o ->
       exists (cfg : AnalysisPlotter.Config) (ds : AnalysisPlotter.Dataset),
         AnalysisPlotter.plot data options = Ok cfg
         /\ AnalysisPlotter.datasets cfg = [ds]
         /\ AnalysisPlotter.labels cfg = AnalysisPlotter.xs data
         /\ AnalysisPlotter.dataset_data ds = AnalysisPlotter.ys data
         /\ AnalysisPlotter.config_type cfg <> ""%string
         /\ AnalysisPlotter.dataset_label ds <> ""%string
         /\ AnalysisPlotter.borderColor ds <> ""%string
         /\ AnalysisPlotter.text (AnalysisPlotter.scale_x cfg) <> ""%string
         /\ AnalysisPlotter.text (AnalysisPlotter.scale_y cfg) <> ""%string.
Proof.
  assert (Hne : forall v d, d <> ""%string -> AnalysisPlotter.or_default v d <> ""%string).
  { intros [s|] d Hd; unfold AnalysisPlotter.or_default; [|exact Hd].
    destruct (String.eqb s "") eqn:E; [exact Hd|].
    now apply String.eqb_neq in E. }
  split.
  - destruct options; split; intros H; try discriminate; reflexivity.
  - intros o ->. do 2 eexists. split; [reflexivity|].
    cbn. repeat split; apply Hne; discriminate.
Qed.

(** Each of the five options reaches its place in the configuration as
    given when it is present and not the empty string; an absent or
    empty option is replaced by its default: ['line'],
    ['Analysis Result'], ['blue'], ['Position (x)'], ['Value (y)']. *)
Theorem plot_options (data : AnalysisPlotter.Data) (o : AnalysisPlotter.Options) :
  let chosen (given : option string) (default used : string) : Prop :=
    (forall s : string, given = Some s -> s <> ""%string -> used = s)
    /\ (given = None \/ given = Some ""%string -> used = default) in
  exists (cfg : AnalysisPlotter.Config) (ds : AnalysisPlotter.Dataset),
    AnalysisPlotter.plot data (Some o) = Ok cfg
    /\ AnalysisPlotter.datasets cfg = [ds]
    /\ chosen (AnalysisPlotter.type o) "line"%string (AnalysisPlotter.config_type cfg)
    /\ chosen (AnalysisPlotter.label o) "Analysis Result"%string
         (AnalysisPlotter.dataset_label ds)
    /\ chosen (AnalysisPlotter.color o) "blue"%string (AnalysisPlotter.borderColor ds)
    /\ chosen (AnalysisPlotter.xLabel o) "Position (x)"%string
         (AnalysisPlotter.text (AnalysisPlotter.scale_x cfg))
    /\ chosen (AnalysisPlotter.yLabel o) "Value (y)"%string
         (AnalysisPlotter.text (AnalysisPlotter.scale_y cfg)).
Proof.
  cbv zeta.
  assert (Hor : forall v d,
             (forall s : string, v = Some s -> s <> ""%string ->
                AnalysisPlotter.or_default v d = s)
             /\ (v = None \/ v = Some ""%string -> AnalysisPlotter.or_default v d = d)).
  { intros v d. split.
    - intros s -> Hs. unfold AnalysisPlotter.or_default.
      apply String.eqb_neq in Hs. now rewrite Hs.
    - intros [->| ->]; reflexivity. }
  do 2 eexists. split; [reflexivity|]. split; [reflexivity|].
  cbn [AnalysisPlotter.config_type AnalysisPlotter.dataset_label
       AnalysisPlotter.borderColor AnalysisPlotter.text
       AnalysisPlotter.scale_x AnalysisPlotter.scale_y].
  repeat split; apply Hor.
Qed.

(** * Instances

    Each property above that has a precondition, at a concrete input. *)

Ltac evaluate :=
  first [ reflexivity
        | vm_compute; first [ reflexivity | discriminate
                            | split; first [ reflexivity | discriminate ]
                            | left; first [ reflexivity | discriminate ]
                            | right; first [ reflexivity | discriminate ] ] ].

(** A material with no property at all, at [x = 1] on a span of [4]. *)
Lemma deflection_missing_EI_witness :
  let beam := new_Beam 4 0 {| name := "wood"; properties := ∅ |} in
  let env := document 1 in
  let load := Scalar 10 in
  let x := 1 : Q in
  (properties (material beam) !! "EI"%string = None)
  /\
  (0 <= x <= primarySpan beam)
  /\
  (simplySupported.getDeflectionEquation beam load env x
    = Ok {| x := x; y := Num JS.NaN |}).
Proof.
  cbv zeta. do 2 (split; [solve [evaluate]|]).
  eapply deflection_missing_EI; solve [evaluate].
Defined.

(** A load object at [x = 1]. *)
Lemma simplySupported_structured_load_witness :
  let beam := new_Beam 4 0 (steel 5000) in
  let env := document 1 in
  let s := {| w1 := 10; w2 := 10; R1 := 7; R2 := 30; R3 := 13 |} in
  let x := 1 : Q in
  (0 <= x <= primarySpan beam)
  /\
  (simplySupported.getDeflectionEquation beam (Structured s) env x
    = Ok {| x := x; y := Num JS.NaN |}
    /\ simplySupported.getBendingMomentEquation beam (Structured s) env x
    = Ok {| x := x; y := Num JS.NaN |}
    /\ simplySupported.getShearForceEquation beam (Structured s) env x
    = Ok {| x := x; y := Num JS.NaN |}).
Proof.
  cbv zeta. do 1 (split; [solve [evaluate]|]).
  eapply simplySupported_structured_load; solve [evaluate].
Defined.

(** Two beams of spans [2] and [3] with different materials. *)
Lemma shear_ignores_material_and_j2_witness :
  let c := document 1 in
  let env := document 2 in
  let c' := document 3 in
  let env' := page 4 5 in
  let w := 10 : Q in
  let beam := new_Beam 2 3 (steel 5000) in
  let beam' := {| primarySpan := 2; secondarySpan := 3; material := steel 1; L1 := Some 2; L2 := Some 3 |} in
  let load := Scalar 10 in
  let x := 1 : Q in
  (primarySpan beam = primarySpan beam')
  /\
  (secondarySpan beam = secondarySpan beam')
  /\
  (twoSpanUnequalA.getShearForceEquation c beam load env x
    = twoSpanUnequalA.getShearForceEquation c' beam' load env' x).
Proof.
  cbv zeta. do 2 (split; [solve [evaluate]|]).
  eapply shear_ignores_material_and_j2; solve [evaluate].
Defined.

(** At [x = -1], before a beam that carries [L1 = 2] and [L2 = 3]. *)
Lemma structured_before_beam_witness :
  let c := document 1 in
  let env := document 1 in
  let beam := {| primarySpan := 2; secondarySpan := 3; material := steel 5000;
                 L1 := Some 2; L2 := Some 3 |} in
  let load := Scalar 10 in
  let x := - 1 : Q in
  (forall l : Q, L1 beam = Some l -> 0 <= l)
  /\
  (forall l : Q, L2 beam = Some l -> 0 <= l)
  /\
  (x < 0)
  /\
  (twoSpanUnequalB.getDeflectionEquation c beam load env x
    = Ok {| x := x; y := Str "0.00" |}
    /\ twoSpanUnequalB.getBendingMomentEquation c beam load env x
    = Ok {| x := x; y := Str "0.00" |}
    /\ twoSpanUnequalB.getShearForceEquation c beam load env x
    = Ok {| x := x; y := Str "0.00" |}).
Proof.
  cbv zeta.
  assert (H1 : forall l : Q, Some 2 = Some l -> 0 <= l)
    by (intros l [= <-]; discriminate).
  assert (H2 : forall l : Q, Some 3 = Some l -> 0 <= l)
    by (intros l [= <-]; discriminate).
  assert (Hx : - 1 < 0) by reflexivity.
  split; [exact H1|]. split; [exact H2|]. split; [exact Hx|].
  apply structured_before_beam; [exact H1 | exact H2 | exact Hx].
Defined.

(** The number [10] as load, at [x = 1]. *)
Lemma structured_scalar_load_NaN_witness :
  let c := document 1 in
  let env := document 1 in
  let beam := {| primarySpan := 2; secondarySpan := 3; material := steel 5000; L1 := Some 2; L2 := Some 3 |} in
  let l1 := 2 : Q in
  let l2 := 3 : Q in
  let w := 10 : Q in
  let x := 1 : Q in
  (L1 beam = Some l1)
  /\
  (L2 beam = Some l2)
  /\
  (0 <= l1)
  /\
  (0 <= l2)
  /\
  (0 < x <= l1 + l2)
  /\
  (twoSpanUnequalB.getBendingMomentEquation c beam (Scalar w) env x
    = Ok {| x := x; y := Str "NaN" |}
    /\ twoSpanUnequalB.getDeflectionEquation c beam (Scalar w) env x
    = Ok {| x := x; y := Str "NaN" |}
    /\ twoSpanUnequalB.getShearForceEquation c beam (Scalar w) env x
    = Ok {| x := x; y := Str "NaN" |}).
Proof.
  cbv zeta. do 5 (split; [solve [evaluate]|]).
  eapply structured_scalar_load_NaN; solve [evaluate].
Defined.
